(** * HeatmapStats: the toolbar's heatmap statistics panel

    A shallow embedding of [frontend/src/toolbar/stats/HeatmapStats.tsx]:
    the React element tree the component returns for a snapshot of the
    [heatmapLogic] values, and the actions its pointer-event handlers
    dispatch to [elementsLogic]. *)

From Stdlib Require Import List String Ascii Bool ZArith Lia DecimalString.
From Stdlib Require Import Reals Lra.
From Stdlib Require Import Nnat.
From Stdlib Require DecimalFacts DecimalPos.
Import ListNotations.

Open Scope string_scope.
Open Scope Z_scope.

(** ** The JavaScript fragment the component relies on *)

Module JS.

(** Integer-valued JavaScript numbers together with the three non-finite
    values.  Every number the component handles is an array length, a click
    count, a rank, or a pixel width computed from an array length. *)
Inductive number : Type :=
| NaN
| Infinity
| NegInfinity
| Int (z : Z).

(** [a + b] *)
Definition add (a b : number) : number :=
  match a, b with
  | NaN, _ | _, NaN => NaN
  | Infinity, NegInfinity | NegInfinity, Infinity => NaN
  | Infinity, _ | _, Infinity => Infinity
  | NegInfinity, _ | _, NegInfinity => NegInfinity
  | Int x, Int y => Int (x + y)
  end.

(** The sign rule of a product with an infinite factor. *)
Definition scale (inf : bool) (z : Z) : number :=
  match z with
  | Z0 => NaN
  | Zpos _ => if inf then Infinity else NegInfinity
  | Zneg _ => if inf then NegInfinity else Infinity
  end.

(** [a * b] *)
Definition mul (a b : number) : number :=
  match a, b with
  | NaN, _ | _, NaN => NaN
  | Infinity, Infinity | NegInfinity, NegInfinity => Infinity
  | Infinity, NegInfinity | NegInfinity, Infinity => NegInfinity
  | Infinity, Int z | Int z, Infinity => scale true z
  | NegInfinity, Int z | Int z, NegInfinity => scale false z
  | Int x, Int y => Int (x * y)
  end.

(** Largest [k] with [10 ^ k <= n], for [1 <= n < 2 ^ fuel]. *)
Fixpoint ilog10 (fuel : nat) (n : Z) : Z :=
  match fuel with
  | O => 0
  | S fuel' => if n <? 10 then 0 else 1 + ilog10 fuel' (n / 10)
  end.

(** Number of decimal digits of a positive integer. *)
Definition digits (n : Z) : Z :=
  ilog10 (S (Z.to_nat (Z.log2 n))) n + 1.

(** [Math.floor(Math.log10(n) + 1)] for an array length [n].
    [Math.log10(0)] is [-Infinity], which [+ 1] and [Math.floor] leave
    alone.  For [n >= 1] the logarithm is taken exactly, so the value is
    the number of decimal digits of [n]; lemma [digits_floor_log10] below
    relates it to the real logarithm.  An engine's [Math.log10] is an
    approximation in double precision; the model takes it to return [k] at
    [10^k] and a value below [k] at [10^k - 1], for array lengths, which
    are below [2^32]. *)
Definition floor_log10_plus_1 (n : nat) : number :=
  match n with
  | O => NegInfinity
  | S _ => Int (digits (Z.of_nat n))
  end.

(** [String(n)], for numbers below the exponent-notation threshold. *)
Definition toString (n : number) : string :=
  match n with
  | NaN => "NaN"
  | Infinity => "Infinity"
  | NegInfinity => "-Infinity"
  | Int z => NilEmpty.string_of_int (Z.to_int z)
  end.

(** Exceptions. *)
Inductive error : Type :=
| TypeError (msg : string).

Inductive result (A : Type) : Type :=
| Ok (a : A)
| Throw (e : error).

Arguments Ok {A} a.
Arguments Throw {A} e.

Definition bind {A B : Type} (c : result A) (k : A -> result B) : result B :=
  match c with
  | Ok a => k a
  | Throw e => Throw e
  end.

(** [xs.map((x, i) => f(x, i))], starting at index [i]; an exception thrown by
    a callback aborts the traversal. *)
Fixpoint map_from {A B : Type} (f : A -> nat -> result B) (i : nat)
         (xs : list A) : result (list B) :=
  match xs with
  | [] => Ok []
  | x :: xs' =>
      bind (f x i) (fun y =>
      bind (map_from f (S i) xs') (fun ys =>
      Ok (y :: ys)))
  end.

(** Truthiness of an optional string: [undefined] and the empty string are
    falsy. *)
Definition truthy (v : option string) : bool :=
  match v with
  | None => false
  | Some s => negb (s =? EmptyString)%string
  end.

End JS.

Notation "x <- c ;; k" := (JS.bind c (fun x => k))
(at level 61, c at next level, right associativity).

(** ** React elements *)

Section Toolbar.

(** DOM element references are opaque to the component. *)
Variable HTMLElement : Type.

(** The two [elementsLogic] actions the component obtains from [useActions]. *)
Inductive action : Type :=
| setHighlightElement (element : option HTMLElement)
| setSelectedElement (element : HTMLElement).

(** Functions imported from [~/toolbar/utils] and passed on by reference. *)
Inductive fnref : Type :=
| getShadowRootPopupContainer.

#[local] Unset Elimination Schemes.

(** An element tree.  [Null] is the JSX [null], [Str] and [Num] are text and
    number children, [Fragment] is [<>...</>].  An event handler is
    represented by the actions one invocation of it dispatches, in order. *)
Inductive node : Type :=
| Null
| Str (s : string)
| Num (n : JS.number)
| Fragment (children : list node)
| El (tag : string) (props : list (string * prop)) (children : list node)
with prop : Type :=
| PStr (s : string)
| PNum (n : JS.number)
| PBool (b : bool)
| PObj (fields : list (string * prop))
| PNode (n : node)
| PHandler (dispatches : list action)
| PFun (f : fnref).

#[local] Set Elimination Schemes.

Fixpoint lookup (k : string) (ps : list (string * prop)) : option prop :=
  match ps with
  | [] => None
  | (k', v) :: ps' => if (k =? k')%string then Some v else lookup k ps'
  end.

(** The text a tree displays: the concatenation of its text and number
    children. *)
Fixpoint textContent (n : node) : string :=
  let fix all (l : list node) : string :=
    match l with
    | [] => EmptyString
    | c :: l' => textContent c ++ all l'
    end in
  match n with
  | Null => EmptyString
  | Str s => s
  | Num k => JS.toString k
  | Fragment cs => all cs
  | El _ _ cs => all cs
  end.

(** Pointer events a row can receive. *)
Inductive event : Type :=
| Click
| DoubleClick
| MouseDown
| MouseUp
| MouseMove
| MouseOver
| MouseOut
| MouseEnter
| MouseLeave.

Definition handlerName (ev : event) : string :=
  match ev with
  | Click => "onClick"
  | DoubleClick => "onDoubleClick"
  | MouseDown => "onMouseDown"
  | MouseUp => "onMouseUp"
  | MouseMove => "onMouseMove"
  | MouseOver => "onMouseOver"
  | MouseOut => "onMouseOut"
  | MouseEnter => "onMouseEnter"
  | MouseLeave => "onMouseLeave"
  end.

(** The actions dispatched when [ev] is delivered to the element [n]. *)
Definition fire (ev : event) (n : node) : list action :=
  match n with
  | El _ props _ =>
      match lookup (handlerName ev) props with
      | Some (PHandler dispatches) => dispatches
      | _ => []
      end
  | _ => []
  end.

(** ** Data model *)

Record ActionStepType : Type := {
  text : option string;
  tag_name : option string
}.

Record CountedElement : Type := {
  element : HTMLElement;
  count : Z;
  actionStep : option ActionStepType
}.

(** The [heatmapLogic] values the component subscribes to. *)
Record values : Type := {
  countedElements : list CountedElement;
  clickCount : Z;
  heatmapEnabled : bool;
  heatmapLoading : bool
}.

(** [actionStep?.text] *)
Definition opt_text (a : option ActionStepType) : option string :=
  match a with
  | Some step => text step
  | None => None
  end.

(** [actionStep?.tag_name] *)
Definition opt_tag_name (a : option ActionStepType) : option string :=
  match a with
  | Some step => tag_name step
  | None => None
  end.

(** [actionStep.tag_name]: reading a property of [undefined] throws. *)
Definition get_tag_name (a : option ActionStepType) : JS.result (option string) :=
  match a with
  | Some step => JS.Ok (tag_name step)
  | None => JS.Throw (JS.TypeError "Cannot read properties of undefined")
  end.

(** An optional string used as a child: [undefined] displays nothing. *)
Definition child (v : option string) : node :=
  match v with
  | Some s => Str s
  | None => Null
  end.

(** ** The component *)

(** Lines 50-55: [actionStep?.text || (actionStep?.tag_name ? <code>...</code>
    : <em>Element</em>)]. *)
Definition rowContent (actionStep : option ActionStepType) : JS.result node :=
  if JS.truthy (opt_text actionStep) then
    JS.Ok (child (opt_text actionStep))
  else if JS.truthy (opt_tag_name actionStep) then
    t <- get_tag_name actionStep ;;
    JS.Ok (El "code" [] [Str "<"; child t; Str ">"])
  else
    JS.Ok (El "em" [] [Str "Element"]).

(** Line 43: [Math.floor(Math.log10(countedElements.length) + 1) * 12 + 6]. *)
Definition labelWidth (countedElements : list CountedElement) : JS.number :=
  JS.add (JS.mul (JS.floor_log10_plus_1 (List.length countedElements)) (JS.Int 12))
         (JS.Int 6).

(** Lines 30-61: the [renderItem] callback. *)
Definition renderItem (countedElements : list CountedElement)
           (item : CountedElement) (index : nat) : JS.result node :=
  let '(Build_CountedElement element count actionStep) := item in
  let width := labelWidth countedElements in
  content <- rowContent actionStep ;;
  JS.Ok
    (El "List.Item"
        [ ("onClick", PHandler [setSelectedElement element]);
          ("onMouseEnter", PHandler [setHighlightElement (Some element)]);
          ("onMouseLeave", PHandler [setHighlightElement None]);
          ("style", PObj [("cursor", PStr "pointer")]) ]
        [ El "List.Item.Meta"
             [ ("title",
                PNode
                  (El "Space" []
                      [ El "span"
                           [ ("style",
                              PObj [ ("display", PStr "inline-block");
                                     ("width", PNum width);
                                     ("textAlign", PStr "right");
                                     ("marginRight", PNum (JS.Int 4)) ]) ]
                           [ Num (JS.Int (Z.of_nat index + 1)); Str "." ];
                        content ])) ]
             [];
          El "div" [] [ Num (JS.Int count); Str " clicks" ] ]).

(** antd's [<List dataSource renderItem>]: one child per item of
    [dataSource], produced by [renderItem(item, index)]. *)
Definition List_ (itemLayout : string) (dataSource : list CountedElement)
           (renderItem : CountedElement -> nat -> JS.result node)
  : JS.result node :=
  items <- JS.map_from renderItem 0%nat dataSource ;;
  JS.Ok (El "List" [("itemLayout", PStr itemLayout)] items).

(** Lines 17-23: the date filter and its wrapper. *)
Definition dateFilter : node :=
  El "div"
     [ ("style", PObj [("marginTop", PNum (JS.Int 0));
                       ("marginBottom", PNum (JS.Int 10))]) ]
     [ El "DateFilter"
          [ ("defaultValue", PStr "Last 7 days");
            ("updatePath", PBool false);
            ("getPopupContainer", PFun getShadowRootPopupContainer) ]
          [] ].

(** Lines 24-26: the summary line. *)
Definition summary (countedElements : list CountedElement) (clickCount : Z)
  : node :=
  El "div"
     [ ("style", PObj [("marginTop", PNum (JS.Int 20));
                       ("marginBottom", PNum (JS.Int 10))]) ]
     [ Str "Found: ";
       Num (JS.Int (Z.of_nat (List.length countedElements)));
       Str " elements / ";
       Num (JS.Int clickCount);
       Str " clicks!" ].

(** Lines 9-67. *)
Definition HeatmapStats (v : values) : JS.result node :=
  let '(Build_values countedElements clickCount heatmapEnabled heatmapLoading) := v in
  body <-
    (if heatmapEnabled && negb heatmapLoading then
       list <- List_ "horizontal" countedElements (renderItem countedElements) ;;
       JS.Ok (Fragment [ dateFilter; summary countedElements clickCount; list ])
     else
       JS.Ok Null) ;;
  JS.Ok (El "div" [] [ body ]).

(** ** Reading the rendered tree *)

Definition props_of (n : node) : list (string * prop) :=
  match n with
  | El _ props _ => props
  | _ => []
  end.

Definition children_of (n : node) : list node :=
  match n with
  | El _ _ children => children
  | Fragment children => children
  | _ => []
  end.

Definition nth_child (i : nat) (n : node) : node :=
  nth i (children_of n) Null.

(** The children of the outer [<div>]'s fragment: filter, summary, list. *)
Definition panel_of (tree : node) : list node :=
  children_of (nth_child 0 tree).

(** The rows of the list, the third child of the fragment. *)
Definition rows_of (tree : node) : list node :=
  children_of (nth 2 (panel_of tree) Null).

(** The [title] of a row's [List.Item.Meta]: the [<Space>] element. *)
Definition title_of (row : node) : node :=
  match lookup "title" (props_of (nth_child 0 row)) with
  | Some (PNode t) => t
  | _ => Null
  end.

(** The rank label: the [<span>] that opens the title. *)
Definition label_of (row : node) : node := nth_child 0 (title_of row).

(** What follows the rank label in the title. *)
Definition content_of (row : node) : node := nth_child 1 (title_of row).

(** The [width] entry of the rank label's [style]. *)
Definition width_of (row : node) : option JS.number :=
  match lookup "style" (props_of (label_of row)) with
  | Some (PObj fields) =>
      match lookup "width" fields with
      | Some (PNum w) => Some w
      | _ => None
      end
  | _ => None
  end.

(** ** Pointer events against an external store *)

Section Store.

(** The store behind [heatmapLogic] and [elementsLogic], its reducer, and the
    selector [useValues(heatmapLogic)] reads through. *)
Variable store : Type.
Variable reducer : store -> action -> store.
Variable select : store -> values.

(** Deliver [ev] to the [k]-th row of the panel rendered from [st]: the
    row's handler dispatches into the store.  The result pairs the next store
    with the actions dispatched. *)
Definition deliver (st : store) (k : nat) (ev : event) : store * list action :=
  match HeatmapStats (select st) with
  | JS.Ok tree =>
      match nth_error (rows_of tree) k with
      | Some row => (fold_left reducer (fire ev row) st, fire ev row)
      | None => (st, [])
      end
  | JS.Throw _ => (st, [])
  end.

(** A session: pointer events delivered one after the other, the panel being
    rendered again from the store each time. *)
Fixpoint run (st : store) (evs : list (nat * event)) : store * list action :=
  match evs with
  | [] => (st, [])
  | (k, ev) :: evs' =>
      let '(st1, trace1) := deliver st k ev in
      let '(st2, trace2) := run st1 evs' in
      (st2, (trace1 ++ trace2)%list)
  end.

End Store.

End Toolbar.

Arguments setHighlightElement {HTMLElement} element.
Arguments setSelectedElement {HTMLElement} element.
Arguments Null {HTMLElement}.
Arguments Str {HTMLElement} s.
Arguments Num {HTMLElement} n.
Arguments Fragment {HTMLElement} children.
Arguments El {HTMLElement} tag props children.
Arguments PStr {HTMLElement} s.
Arguments PNum {HTMLElement} n.
Arguments PBool {HTMLElement} b.
Arguments PObj {HTMLElement} fields.
Arguments PNode {HTMLElement} n.
Arguments PHandler {HTMLElement} dispatches.
Arguments PFun {HTMLElement} f.
Arguments lookup {HTMLElement} k ps.
Arguments textContent {HTMLElement} n.
Arguments fire {HTMLElement} ev n.
Arguments Build_CountedElement {HTMLElement} element count actionStep.
Arguments element {HTMLElement} c.
Arguments count {HTMLElement} c.
Arguments actionStep {HTMLElement} c.
Arguments Build_values {HTMLElement} countedElements clickCount heatmapEnabled heatmapLoading.
Arguments countedElements {HTMLElement} v.
Arguments clickCount {HTMLElement} v.
Arguments heatmapEnabled {HTMLElement} v.
Arguments heatmapLoading {HTMLElement} v.
Arguments child {HTMLElement} v.
Arguments rowContent {HTMLElement} actionStep.
Arguments labelWidth {HTMLElement} countedElements.
Arguments renderItem {HTMLElement} countedElements item index.
Arguments List_ {HTMLElement} itemLayout dataSource renderItem.
Arguments dateFilter {HTMLElement}.
Arguments summary {HTMLElement} countedElements clickCount.
Arguments HeatmapStats {HTMLElement} v.
Arguments props_of {HTMLElement} n.
Arguments children_of {HTMLElement} n.
Arguments nth_child {HTMLElement} i n.
Arguments panel_of {HTMLElement} tree.
Arguments rows_of {HTMLElement} tree.
Arguments title_of {HTMLElement} row.
Arguments label_of {HTMLElement} row.
Arguments content_of {HTMLElement} row.
Arguments width_of {HTMLElement} row.
Arguments deliver {HTMLElement store} reducer select st k ev.
Arguments run {HTMLElement store} reducer select st evs.

(** ** The width formula over the reals *)

(** [log10 x], the base-ten logarithm. *)
Definition log10 (x : R) : R := (ln x / ln 10)%R.

(** [floor x], the largest integer not above [x]. *)
Definition floor (x : R) : Z := Int_part x.

(** The documented width of the rank column for a list of [N] rows:
    [floor(log10(N) + 1) * 12 + 6]. *)
Definition width_formula (N : nat) : Z :=
  floor (log10 (INR N) + 1) * 12 + 6.

(** ** The documented row content *)

(** Row content as documented, from the two optional fields: the text if it
    is present, else the tag name as [<code>] if that is present, else the
    fallback. *)
Definition documented_content {HTMLElement : Type}
           (text tag_name : option string) : node HTMLElement :=
  match text with
  | Some s => Str s
  | None =>
      match tag_name with
      | Some t => El "code" [] [Str "<"; Str t; Str ">"]
      | None => El "em" [] [Str "Element"]
      end
  end.

(** An optional string that counts as present only when it is not empty. *)
Definition nonempty (v : option string) : option string :=
  match v with
  | Some EmptyString => None
  | _ => v
  end.

(** ** Sample data *)

(** Element references are numbered in the samples. *)
Definition buyNow : CountedElement nat :=
  {| element := 1%nat; count := 7;
     actionStep := Some {| text := Some "Buy now"; tag_name := Some "a" |} |}.

Definition button : CountedElement nat :=
  {| element := 2%nat; count := 3;
     actionStep := Some {| text := None; tag_name := Some "button" |} |}.

Definition bare : CountedElement nat :=
  {| element := 3%nat; count := 1; actionStep := None |}.

(** A present but empty text next to a tag name. *)
Definition emptyText : CountedElement nat :=
  {| element := 4%nat; count := 2;
     actionStep := Some {| text := Some EmptyString; tag_name := Some "button" |} |}.

(** A present but empty tag name and no text. *)
Definition emptyTag : CountedElement nat :=
  {| element := 5%nat; count := 2;
     actionStep := Some {| text := None; tag_name := Some EmptyString |} |}.

Definition sample : values nat :=
  {| countedElements := [buyNow; button; bare];
     clickCount := 11;
     heatmapEnabled := true;
     heatmapLoading := false |}.

Definition loading : values nat :=
  {| countedElements := [buyNow; button; bare];
     clickCount := 11;
     heatmapEnabled := true;
     heatmapLoading := true |}.

Definition nothingFound : values nat :=
  {| countedElements := [];
     clickCount := 0;
     heatmapEnabled := true;
     heatmapLoading := false |}.

Definition emptyTextOnly : values nat :=
  {| countedElements := [emptyText];
     clickCount := 2;
     heatmapEnabled := true;
     heatmapLoading := false |}.

Definition emptyTagOnly : values nat :=
  {| countedElements := [emptyTag];
     clickCount := 2;
     heatmapEnabled := true;
     heatmapLoading := false |}.

(** [sample] with one more element at the end. *)
Definition sampleGrown : values nat :=
  {| countedElements := [buyNow; button; bare; emptyText];
     clickCount := 13;
     heatmapEnabled := true;
     heatmapLoading := false |}.

(** The tree rendered for [sample], and its second row. *)
Definition sampleTree : node nat :=
  Eval vm_compute in
    match HeatmapStats sample with
    | JS.Ok tree => tree
    | JS.Throw _ => Null
    end.

Definition sampleRow : node nat :=
  Eval vm_compute in nth 1 (rows_of sampleTree) Null.

(** A store that keeps the heatmap values next to a log of the actions it
    received. *)
Definition logStore : Type := values nat * list (action nat).

Definition logReducer (st : logStore) (a : action nat) : logStore :=
  (fst st, (snd st ++ [a])%list).

Definition logSelect (st : logStore) : values nat := fst st.

Definition session : list (nat * event) :=
  [(0%nat, MouseEnter); (0%nat, MouseMove); (0%nat, Click);
   (0%nat, MouseLeave); (7%nat, Click)].

(** * Properties *)

(** ** Decimal digits and the real logarithm *)

Lemma ilog10_spec (fuel : nat) :
  forall n : Z,
    1 <= n < 2 ^ Z.of_nat fuel ->
    0 <= JS.ilog10 fuel n /\
    10 ^ JS.ilog10 fuel n <= n < 10 ^ (JS.ilog10 fuel n + 1).
Proof.
  induction fuel as [|fuel IH]; intros n Hn.
  - simpl in Hn. lia.
  - cbn [JS.ilog10]. destruct (Z.ltb_spec n 10) as [Hlt|Hge].
    + simpl. lia.
    + assert (Hpow : 2 ^ Z.of_nat (S fuel) = 2 * 2 ^ Z.of_nat fuel).
      { rewrite Nat2Z.inj_succ, Z.pow_succ_r by lia. reflexivity. }
      assert (Hq : 1 <= n / 10 < 2 ^ Z.of_nat fuel).
      { split.
        - apply Z.div_le_lower_bound; lia.
        - apply Z.div_lt_upper_bound; lia. }
      destruct (IH _ Hq) as (Hk & Hlo & Hhi).
      pose proof (Z.mul_div_le n 10 ltac:(lia)) as Hdown.
      pose proof (Z.mul_succ_div_gt n 10 ltac:(lia)) as Hup.
      replace (1 + JS.ilog10 fuel (n / 10) + 1)
        with (Z.succ (JS.ilog10 fuel (n / 10) + 1)) by lia.
      replace (1 + JS.ilog10 fuel (n / 10))
        with (Z.succ (JS.ilog10 fuel (n / 10))) by lia.
      rewrite !Z.pow_succ_r by lia.
      repeat split; lia.
Qed.

Lemma digits_spec (n : Z) :
  1 <= n ->
  1 <= JS.digits n /\ 10 ^ (JS.digits n - 1) <= n < 10 ^ JS.digits n.
Proof.
  intros Hn. unfold JS.digits.
  destruct (Z.log2_spec n ltac:(lia)) as [_ Hhi].
  pose proof (Z.log2_nonneg n) as Hlog.
  assert (Hfuel : 1 <= n < 2 ^ Z.of_nat (S (Z.to_nat (Z.log2 n)))).
  { rewrite Nat2Z.inj_succ, Z2Nat.id by assumption. lia. }
  destruct (ilog10_spec _ _ Hfuel) as (Hk & Hlo & Hup).
  replace (JS.ilog10 (S (Z.to_nat (Z.log2 n))) n + 1 - 1)
    with (JS.ilog10 (S (Z.to_nat (Z.log2 n))) n) by lia.
  repeat split; lia.
Qed.

Lemma ln_10_pos : (0 < ln 10)%R.
Proof.
  rewrite <- ln_1. apply ln_increasing; lra.
Qed.

Lemma log10_pow (k : nat) : log10 (10 ^ k) = INR k.
Proof.
  unfold log10. rewrite ln_pow by lra.
  field. apply Rgt_not_eq, ln_10_pos.
Qed.

Lemma log10_le (x y : R) : (0 < x)%R -> (x <= y)%R -> (log10 x <= log10 y)%R.
Proof.
  intros Hx Hxy. unfold log10.
  apply Rmult_le_compat_r.
  - left. apply Rinv_0_lt_compat, ln_10_pos.
  - destruct Hxy as [Hlt|Heq].
    + left. apply ln_increasing; assumption.
    + right. rewrite Heq. reflexivity.
Qed.

Lemma log10_lt (x y : R) : (0 < x)%R -> (x < y)%R -> (log10 x < log10 y)%R.
Proof.
  intros Hx Hxy. unfold log10.
  apply Rmult_lt_compat_r.
  - apply Rinv_0_lt_compat, ln_10_pos.
  - apply ln_increasing; assumption.
Qed.

(** The digit count is the floor of the real logarithm plus one. *)
Lemma digits_floor_log10 (n : Z) :
  1 <= n -> JS.digits n = floor (log10 (IZR n) + 1).
Proof.
  intros Hn.
  destruct (digits_spec n Hn) as (Hd & Hlo & Hhi).
  set (d := JS.digits n) in *.
  assert (Hn0 : (0 < IZR n)%R) by (apply IZR_lt; lia).
  assert (Hlow : (IZR (d - 1) <= log10 (IZR n))%R).
  { rewrite <- (Z2Nat.id (d - 1)) at 1 by lia.
    rewrite <- INR_IZR_INZ, <- log10_pow.
    apply log10_le; [apply pow_lt; lra|].
    rewrite <- (Z2Nat.id (d - 1)) in Hlo by lia.
    rewrite pow_IZR. apply IZR_le. assumption. }
  assert (Hupp : (log10 (IZR n) < IZR d)%R).
  { rewrite <- (Z2Nat.id d) at 1 by lia.
    rewrite <- INR_IZR_INZ, <- log10_pow.
    apply log10_lt; [assumption|].
    rewrite <- (Z2Nat.id d) in Hhi by lia.
    rewrite pow_IZR. apply IZR_lt. lia. }
  unfold floor. apply Int_part_spec.
  rewrite minus_IZR in Hlow. lra.
Qed.

(** ** Rendering never throws *)

Section Properties.

Context {HTMLElement : Type}.

Implicit Types (v : values HTMLElement) (item : CountedElement HTMLElement).
Implicit Types (tree row : node HTMLElement) (a : option ActionStepType).

(** The guard [actionStep?.tag_name] protects the plain read of
    [actionStep.tag_name]. *)
Lemma guarded_tag_name a :
  JS.truthy (opt_tag_name a) = true ->
  get_tag_name a = JS.Ok (opt_tag_name a).
Proof.
  destruct a as [step|]; cbn; [reflexivity | discriminate].
Qed.

Lemma rowContent_ok a :
  exists content : node HTMLElement, rowContent a = JS.Ok content.
Proof.
  unfold rowContent.
  destruct (JS.truthy (opt_text a)); [eauto|].
  destruct (JS.truthy (opt_tag_name a)) eqn:Htag; [|eauto].
  rewrite (guarded_tag_name _ Htag). cbn. eauto.
Qed.

(** What [renderItem] returns, read through the accessors. *)
Lemma renderItem_ok (ces : list (CountedElement HTMLElement)) item (index : nat) :
  exists row content,
    renderItem ces item index = JS.Ok row /\
    rowContent (actionStep item) = JS.Ok content /\
    content_of row = content /\
    width_of row = Some (labelWidth ces) /\
    children_of (label_of row) =
      [Num (JS.Int (Z.of_nat index + 1)); Str "."] /\
    nth_child 1 row = El "div" [] [Num (JS.Int (count item)); Str " clicks"] /\
    fire Click row = [setSelectedElement (element item)] /\
    fire MouseEnter row = [setHighlightElement (Some (element item))] /\
    fire MouseLeave row = [setHighlightElement None] /\
    (forall ev, ev <> Click -> ev <> MouseEnter -> ev <> MouseLeave ->
                fire ev row = []).
Proof.
  destruct item as [e c a]. cbn [actionStep element count].
  destruct (rowContent_ok a) as [content Hcontent].
  unfold renderItem. rewrite Hcontent. cbn [JS.bind].
  eexists. exists content.
  repeat split; try reflexivity.
  intros ev H1 H2 H3. destruct ev; try reflexivity; contradiction.
Qed.

Lemma renderItem_total (ces : list (CountedElement HTMLElement)) item (index : nat) :
  exists row, renderItem ces item index = JS.Ok row.
Proof.
  destruct (renderItem_ok ces item index) as (row & _ & Hrow & _). eauto.
Qed.

Lemma map_from_ok {A B : Type} (f : A -> nat -> JS.result B) :
  (forall x i, exists y, f x i = JS.Ok y) ->
  forall xs i,
  exists ys,
    JS.map_from f i xs = JS.Ok ys /\
    List.length ys = List.length xs /\
    forall k x, nth_error xs k = Some x ->
                exists y, nth_error ys k = Some y /\ f x (i + k)%nat = JS.Ok y.
Proof.
  intros Hf xs. induction xs as [|x xs IH]; intros i.
  - exists []. repeat split. intros [|k] x Hx; discriminate.
  - destruct (Hf x i) as [y Hy].
    destruct (IH (S i)) as (ys & Hys & Hlen & Hnth).
    exists (y :: ys). cbn. rewrite Hy. cbn. rewrite Hys. cbn.
    repeat split; [congruence|].
    intros [|k] x' Hx'; cbn in *.
    + injection Hx' as <-. exists y. rewrite Nat.add_0_r. auto.
    + destruct (Hnth _ _ Hx') as (y' & Hy' & Hfy').
      exists y'. rewrite Nat.add_succ_r. auto.
Qed.

(** The tree of a visible panel. *)
Lemma HeatmapStats_visible v :
  heatmapEnabled v = true ->
  heatmapLoading v = false ->
  exists rows,
    HeatmapStats v =
      JS.Ok (El "div" []
                [Fragment
                   [dateFilter;
                    summary (countedElements v) (clickCount v);
                    El "List" [("itemLayout", PStr "horizontal")] rows]]) /\
    List.length rows = List.length (countedElements v) /\
    forall k item,
      nth_error (countedElements v) k = Some item ->
      exists row,
        nth_error rows k = Some row /\
        renderItem (countedElements v) item k = JS.Ok row.
Proof.
  destruct v as [ces clicks enabled loading]. cbn.
  intros -> ->. cbn.
  destruct (map_from_ok (renderItem ces) (renderItem_total ces) ces 0%nat)
    as (rows & Hrows & Hlen & Hnth).
  exists rows. unfold List_. rewrite Hrows. cbn. auto.
Qed.

(** The tree of a hidden panel. *)
Lemma HeatmapStats_hidden v :
  heatmapEnabled v && negb (heatmapLoading v) = false ->
  HeatmapStats v = JS.Ok (El "div" [] [Null]).
Proof.
  destruct v as [ces clicks enabled loading]. cbn.
  intros ->. reflexivity.
Qed.

(** Every row of the rendered list is [renderItem] of the item at its
    position. *)
Lemma HeatmapStats_rows v :
  exists tree,
    HeatmapStats v = JS.Ok tree /\
    forall k row,
      nth_error (rows_of tree) k = Some row ->
      heatmapEnabled v = true /\ heatmapLoading v = false /\
      exists item,
        nth_error (countedElements v) k = Some item /\
        renderItem (countedElements v) item k = JS.Ok row.
Proof.
  destruct (heatmapEnabled v && negb (heatmapLoading v)) eqn:Hvis.
  - apply andb_true_iff in Hvis as [Hen Hld].
    apply negb_true_iff in Hld.
    destruct (HeatmapStats_visible v Hen Hld) as (rows & Htree & Hlen & Hnth).
    eexists. split; [exact Htree|].
    cbn. intros k row Hrow.
    repeat split; try assumption.
    assert (Hk : (k < List.length (countedElements v))%nat).
    { rewrite <- Hlen. apply nth_error_Some. congruence. }
    destruct (nth_error (countedElements v) k) as [item|] eqn:Hitem.
    + exists item. split; [reflexivity|].
      destruct (Hnth _ _ Hitem) as (row' & Hrow' & Hrender).
      congruence.
    + apply nth_error_None in Hitem. lia.
  - eexists. split; [apply HeatmapStats_hidden; assumption|].
    cbn. intros [|k] row Hrow; discriminate.
Qed.

(** ** Visibility *)

(** C1. Whenever [heatmapEnabled] is false or [heatmapLoading] is true, the
    component renders the empty container: a [<div>] whose only child is
    [null], with no filter, no summary line, no list rows and no text. *)
Theorem hidden_panel_is_empty v :
  heatmapEnabled v = false \/ heatmapLoading v = true ->
  exists tree,
    HeatmapStats v = JS.Ok tree /\
    tree = El "div" [] [Null] /\
    panel_of tree = [] /\
    rows_of tree = [] /\
    textContent tree = EmptyString.
Proof.
  intros Hhidden.
  exists (El "div" [] [Null]).
  repeat split.
  apply HeatmapStats_hidden.
  destruct Hhidden as [-> | ->]; [reflexivity | apply andb_false_r].
Qed.

(** A visible panel is not the empty container. *)
Lemma visible_panel_not_empty v :
  heatmapEnabled v = true ->
  heatmapLoading v = false ->
  HeatmapStats v <> JS.Ok (El "div" [] [Null]).
Proof.
  intros Hen Hld.
  destruct (HeatmapStats_visible v Hen Hld) as (rows & Htree & _).
  rewrite Htree. discriminate.
Qed.

(** ** The parts of a visible panel *)

(** C8. In every visible state the first child of the panel is the wrapper of
    the date filter, and the filter is configured with the default value
    "Last 7 days", with [updatePath] false, and with
    [getShadowRootPopupContainer] as its popup-container resolver; the
    summary line and the list follow it. *)
Theorem date_filter_comes_first v :
  heatmapEnabled v = true ->
  heatmapLoading v = false ->
  exists tree wrapper line list,
    HeatmapStats v = JS.Ok tree /\
    panel_of tree = [wrapper; line; list] /\
    children_of wrapper =
      [El "DateFilter"
          [("defaultValue", PStr "Last 7 days");
           ("updatePath", PBool false);
           ("getPopupContainer", PFun getShadowRootPopupContainer)]
          []] /\
    line = summary (countedElements v) (clickCount v) /\
    list = El "List" [("itemLayout", PStr "horizontal")] (rows_of tree).
Proof.
  intros Hen Hld.
  destruct (HeatmapStats_visible v Hen Hld) as (rows & Htree & _).
  do 4 eexists. split; [exact Htree|].
  repeat split.
Qed.

(** C2. In every visible state the summary line has the children
    "Found: ", N, " elements / ", M, " clicks!" with N the length of
    [countedElements] and M [clickCount], so that it reads
    [Found: N elements / M clicks!]. *)
Theorem summary_line_text v :
  heatmapEnabled v = true ->
  heatmapLoading v = false ->
  exists tree line,
    HeatmapStats v = JS.Ok tree /\
    nth_error (panel_of tree) 1 = Some line /\
    children_of line =
      [Str "Found: ";
       Num (JS.Int (Z.of_nat (List.length (countedElements v))));
       Str " elements / ";
       Num (JS.Int (clickCount v));
       Str " clicks!"] /\
    textContent line =
      "Found: "
        ++ JS.toString (JS.Int (Z.of_nat (List.length (countedElements v))))
        ++ " elements / "
        ++ JS.toString (JS.Int (clickCount v))
        ++ " clicks!".
Proof.
  intros Hen Hld.
  destruct (HeatmapStats_visible v Hen Hld) as (rows & Htree & _).
  do 2 eexists. split; [exact Htree|].
  repeat split.
Qed.

(** ** Totality *)



(** ** The rows *)

(** C5. In every visible state the list has one row per element of
    [countedElements], in the same order: the row at position [k] is
    [renderItem] of the element at position [k], its click selects that
    element, and its rank label shows [k + 1] followed by a full stop. *)
Theorem one_row_per_element v :
  heatmapEnabled v = true ->
  heatmapLoading v = false ->
  exists tree,
    HeatmapStats v = JS.Ok tree /\
    List.length (rows_of tree) = List.length (countedElements v) /\
    forall k item,
      nth_error (countedElements v) k = Some item ->
      exists row,
        nth_error (rows_of tree) k = Some row /\
        renderItem (countedElements v) item k = JS.Ok row /\
        fire Click row = [setSelectedElement (element item)] /\
        children_of (label_of row) =
          [Num (JS.Int (Z.of_nat k + 1)); Str "."] /\
        textContent (label_of row) =
          JS.toString (JS.Int (Z.of_nat k + 1)) ++ ".".
Proof.
  intros Hen Hld.
  destruct (HeatmapStats_visible v Hen Hld) as (rows & Htree & Hlen & Hnth).
  eexists. split; [exact Htree|]. cbn.
  split; [exact Hlen|].
  intros k item Hitem.
  destruct (Hnth _ _ Hitem) as (row & Hrow & Hrender).
  exists row. repeat split; try assumption.
  all: destruct (renderItem_ok (countedElements v) item k)
    as (row' & content & Hrender' & _ & _ & _ & Hlabel & _ & Hclick & _).
  all: assert (row' = row) as -> by congruence.
  - exact Hclick.
  - exact Hlabel.
  - revert Hlabel.
    destruct (label_of row) as [| | |cs|tag props cs]; cbn [children_of];
      intros Hlabel; try discriminate; subst cs; reflexivity.
Qed.

(** C3, as the code has it.  The content of every rendered row is the
    element's [actionStep.text] when that is present and not empty;
    otherwise the tag name inside [<code>], between "<" and ">", when
    [actionStep.tag_name] is present and not empty; otherwise the
    emphasised fallback "Element".  An empty string counts as absent. *)
Theorem row_content_by_truthiness v :
  exists tree,
    HeatmapStats v = JS.Ok tree /\
    forall k row,
      nth_error (rows_of tree) k = Some row ->
      exists item,
        nth_error (countedElements v) k = Some item /\
        content_of row =
          documented_content (nonempty (opt_text (actionStep item)))
                             (nonempty (opt_tag_name (actionStep item))).
Proof.
  destruct (HeatmapStats_rows v) as (tree & Htree & Hrows).
  exists tree. split; [exact Htree|].
  intros k row Hrow.
  destruct (Hrows _ _ Hrow) as (_ & _ & item & Hitem & Hrender).
  exists item. split; [exact Hitem|].
  destruct (renderItem_ok (countedElements v) item k)
    as (row' & content & Hrender' & Hcontent & Hof & _).
  assert (row' = row) as -> by congruence.
  rewrite Hof. clear - Hcontent.
  destruct (actionStep item) as [[[[|c s]|] [[|c' t]|]]|];
    cbn in Hcontent; injection Hcontent as <-; reflexivity.
Qed.

(** C4. Every rendered row has the same rank-label width, and with N the
    length of [countedElements] that width is
    [floor(log10(N) + 1) * 12 + 6] pixels. *)
Theorem label_width_formula v :
  exists tree,
    HeatmapStats v = JS.Ok tree /\
    forall k row,
      nth_error (rows_of tree) k = Some row ->
      width_of row =
        Some (JS.Int (width_formula (List.length (countedElements v)))).
Proof.
  destruct (HeatmapStats_rows v) as (tree & Htree & Hrows).
  exists tree. split; [exact Htree|].
  intros k row Hrow.
  destruct (Hrows _ _ Hrow) as (_ & _ & item & Hitem & Hrender).
  destruct (renderItem_ok (countedElements v) item k)
    as (row' & content & Hrender' & _ & _ & Hwidth & _).
  assert (row' = row) as -> by congruence.
  rewrite Hwidth. f_equal.
  destruct (countedElements v) as [|item0 ces] eqn:Hces.
  - destruct k; discriminate.
  - unfold labelWidth, width_formula, JS.floor_log10_plus_1.
    cbn [List.length JS.mul JS.add].
    rewrite INR_IZR_INZ, <- digits_floor_log10 by lia.
    reflexivity.
Qed.

(** C10. The width is only ever attached to a row, and a row exists only in
    a non-empty list: with [countedElements] empty there are no rows, and
    every rendered row comes with N >= 1 and a finite width of at least 18
    pixels. *)
Theorem label_width_well_defined v :
  exists tree,
    HeatmapStats v = JS.Ok tree /\
    (countedElements v = [] -> rows_of tree = []) /\
    forall k row,
      nth_error (rows_of tree) k = Some row ->
      (1 <= List.length (countedElements v))%nat /\
      exists w, width_of row = Some (JS.Int w) /\ 18 <= w.
Proof.
  destruct (HeatmapStats_rows v) as (tree & Htree & Hrows).
  exists tree. split; [exact Htree|]. split.
  - intros Hempty.
    destruct (rows_of tree) as [|row rows] eqn:Hrs; [reflexivity|].
    destruct (Hrows 0%nat row eq_refl) as (_ & _ & item & Hitem & _).
    rewrite Hempty in Hitem. discriminate.
  - intros k row Hrow.
    destruct (Hrows _ _ Hrow) as (_ & _ & item & Hitem & Hrender).
    destruct (renderItem_ok (countedElements v) item k)
      as (row' & content & Hrender' & _ & _ & Hwidth & _).
    assert (row' = row) as -> by congruence.
    destruct (countedElements v) as [|item0 ces] eqn:Hces.
    + destruct k; discriminate.
    + split; [cbn; lia|].
      eexists. split; [exact Hwidth|].
      pose proof (digits_spec (Z.of_nat (List.length (item0 :: ces)))
                    ltac:(cbn [List.length]; lia)) as (Hd & _).
      lia.
Qed.

(** The handlers of the rows, read off [renderItem]. *)
Lemma rows_dispatch v :
  exists tree,
    HeatmapStats v = JS.Ok tree /\
    forall k row,
      nth_error (rows_of tree) k = Some row ->
      exists item,
        nth_error (countedElements v) k = Some item /\
        fire Click row = [setSelectedElement (element item)] /\
        fire MouseEnter row = [setHighlightElement (Some (element item))] /\
        fire MouseLeave row = [setHighlightElement None] /\
        forall ev,
          ev <> Click -> ev <> MouseEnter -> ev <> MouseLeave ->
          fire ev row = [].
Proof.
  destruct (HeatmapStats_rows v) as (tree & Htree & Hrows).
  exists tree. split; [exact Htree|].
  intros k row Hrow.
  destruct (Hrows _ _ Hrow) as (_ & _ & item & Hitem & Hrender).
  destruct (renderItem_ok (countedElements v) item k)
    as (row' & content & Hrender' & _ & _ & _ & _ & _ & Hevents).
  assert (row' = row) as -> by congruence.
  exists item. split; [exact Hitem | exact Hevents].
Qed.

(** C6. On every rendered row, holding the element [e]: a click dispatches
    [setSelectedElement e] once, mouse-enter dispatches
    [setHighlightElement e], mouse-leave dispatches
    [setHighlightElement null], and no other pointer event dispatches
    anything. *)
Theorem row_pointer_events v :
  exists tree,
    HeatmapStats v = JS.Ok tree /\
    forall k row,
      nth_error (rows_of tree) k = Some row ->
      exists item,
        nth_error (countedElements v) k = Some item /\
        fire Click row = [setSelectedElement (element item)] /\
        fire MouseEnter row = [setHighlightElement (Some (element item))] /\
        fire MouseLeave row = [setHighlightElement None] /\
        forall ev,
          ev <> Click -> ev <> MouseEnter -> ev <> MouseLeave ->
          fire ev row = [].
Proof.
  exact (rows_dispatch v).
Qed.

(** ** Pointer events and the store *)

Section Frame.

Variable store : Type.
Variable reducer : store -> action HTMLElement -> store.
Variable select : store -> values HTMLElement.

Lemma deliver_store (st : store) (k : nat) (ev : event) :
  fst (deliver reducer select st k ev) =
    fold_left reducer (snd (deliver reducer select st k ev)) st.
Proof.
  unfold deliver.
  destruct (HeatmapStats (select st)) as [tree|e]; [|reflexivity].
  destruct (nth_error (rows_of tree) k); reflexivity.
Qed.

Lemma fold_left_select (acts : list (action HTMLElement)) :
  (forall s act, select (reducer s act) = select s) ->
  forall st, select (fold_left reducer acts st) = select st.
Proof.
  intros Hkeep. induction acts as [|act acts IH]; intros st; cbn.
  - reflexivity.
  - rewrite IH. apply Hkeep.
Qed.

Lemma run_cons (st : store) (k : nat) (ev : event) (evs : list (nat * event)) :
  run reducer select st ((k, ev) :: evs) =
    (fst (run reducer select (fst (deliver reducer select st k ev)) evs),
     (snd (deliver reducer select st k ev)
        ++ snd (run reducer select (fst (deliver reducer select st k ev)) evs))%list).
Proof.
  cbn [run].
  destruct (deliver reducer select st k ev) as [st1 trace1]. cbn [fst snd].
  destruct (run reducer select st1 evs) as [st2 trace2].
  reflexivity.
Qed.

End Frame.

End Properties.

(** * The properties on the sample data *)

Lemma sample_renders : HeatmapStats sample = JS.Ok sampleTree.
Proof. reflexivity. Qed.

Ltac same_tree H :=
  match type of H with
  | HeatmapStats ?v = JS.Ok ?t =>
      let Hsame := fresh "Hsame" in
      assert (Hsame : JS.Ok t = HeatmapStats v) by (symmetry; exact H);
      vm_compute in Hsame; injection Hsame as Hsame; subst t
  end.

Lemma hidden_panel_is_empty_witness :
  heatmapLoading loading = true /\
  HeatmapStats loading = JS.Ok (El "div" [] [Null]).
Proof.
  split; [reflexivity|].
  destruct (hidden_panel_is_empty (HTMLElement := nat) loading
              (or_intror eq_refl))
    as (tree & Htree & Hshape & _).
  rewrite Htree, Hshape. reflexivity.
Defined.

Lemma date_filter_comes_first_witness :
  exists filter,
    option_map children_of (nth_error (panel_of sampleTree) 0) = Some [filter] /\
    lookup "defaultValue" (props_of filter) = Some (PStr "Last 7 days") /\
    lookup "updatePath" (props_of filter) = Some (PBool false) /\
    lookup "getPopupContainer" (props_of filter) =
      Some (PFun getShadowRootPopupContainer).
Proof.
  destruct (date_filter_comes_first (HTMLElement := nat) sample
              eq_refl eq_refl)
    as (tree & wrapper & line & list & Htree & Hpanel & Hfilter & _).
  assert (Hsame : tree = sampleTree).
  { vm_compute in Htree. injection Htree as <-. reflexivity. }
  rewrite Hsame in Hpanel.
  eexists. rewrite Hpanel. cbn [nth_error option_map].
  rewrite Hfilter. repeat split.
Defined.

Lemma summary_line_text_witness :
  exists line,
    nth_error (panel_of sampleTree) 1 = Some line /\
    textContent line = "Found: 3 elements / 11 clicks!".
Proof.
  destruct (summary_line_text (HTMLElement := nat) sample eq_refl eq_refl)
    as (tree & line & Htree & Hline & _ & Htext).
  assert (Hsame : tree = sampleTree).
  { vm_compute in Htree. injection Htree as <-. reflexivity. }
  exists line. rewrite <- Hsame. split; [exact Hline|].
  rewrite Htext. reflexivity.
Defined.


Lemma one_row_per_element_witness :
  List.length (rows_of sampleTree) = 3%nat /\
  nth_error (rows_of sampleTree) 1 = Some sampleRow /\
  fire Click sampleRow = [setSelectedElement 2%nat] /\
  textContent (label_of sampleRow) = "2.".
Proof.
  destruct (one_row_per_element (HTMLElement := nat) sample eq_refl eq_refl)
    as (tree & Htree & Hlen & Hrows).
  same_tree Htree.
  split; [exact Hlen|].
  destruct (Hrows 1%nat button eq_refl)
    as (row & Hrow & _ & Hclick & _ & Htext).
  injection Hrow as <-.
  split; [reflexivity|].
  split; [exact Hclick | exact Htext].
Defined.

(** C3 as documented fails: with a present but empty text next to the tag
    name "button", the row shows [<code>] with the tag name, not the empty
    text. *)
Lemma empty_text_is_skipped :
  exists tree row,
    HeatmapStats emptyTextOnly = JS.Ok tree /\
    nth_error (rows_of tree) 0 = Some row /\
    content_of row = El "code" [] [Str "<"; Str "button"; Str ">"] /\
    content_of row <>
      documented_content (opt_text (actionStep emptyText))
                         (opt_tag_name (actionStep emptyText)).
Proof.
  do 2 eexists.
  split; [reflexivity|].
  split; [reflexivity|].
  split; [reflexivity|].
  vm_compute. discriminate.
Qed.

(** Likewise a present but empty tag name gives the fallback, not an empty
    [<code>]. *)
Lemma empty_tag_name_is_skipped :
  exists tree row,
    HeatmapStats emptyTagOnly = JS.Ok tree /\
    nth_error (rows_of tree) 0 = Some row /\
    content_of row = El "em" [] [Str "Element"] /\
    content_of row <>
      documented_content (opt_text (actionStep emptyTag))
                         (opt_tag_name (actionStep emptyTag)).
Proof.
  do 2 eexists.
  split; [reflexivity|].
  split; [reflexivity|].
  split; [reflexivity|].
  vm_compute. discriminate.
Qed.

Lemma row_content_by_truthiness_witness :
  nth_error (rows_of sampleTree) 1 = Some sampleRow /\
  content_of sampleRow = El "code" [] [Str "<"; Str "button"; Str ">"].
Proof.
  split; [reflexivity|].
  destruct (row_content_by_truthiness (HTMLElement := nat) sample)
    as (tree & Htree & Hrows).
  same_tree Htree.
  destruct (Hrows 1%nat sampleRow eq_refl) as (item & Hitem & Hcontent).
  injection Hitem as <-.
  exact Hcontent.
Defined.

Lemma label_width_formula_witness :
  nth_error (rows_of sampleTree) 1 = Some sampleRow /\
  width_of sampleRow = Some (JS.Int (width_formula 3)).
Proof.
  split; [reflexivity|].
  destruct (label_width_formula (HTMLElement := nat) sample)
    as (tree & Htree & Hrows).
  same_tree Htree.
  exact (Hrows 1%nat sampleRow eq_refl).
Defined.

Lemma label_width_well_defined_witness :
  (exists tree, HeatmapStats nothingFound = JS.Ok tree /\ rows_of tree = []) /\
  nth_error (rows_of sampleTree) 1 = Some sampleRow /\
  exists w, width_of sampleRow = Some (JS.Int w) /\ 18 <= w.
Proof.
  split.
  - destruct (label_width_well_defined (HTMLElement := nat) nothingFound)
      as (tree & Htree & Hempty & _).
    exists tree. split; [exact Htree | exact (Hempty eq_refl)].
  - split; [reflexivity|].
    destruct (label_width_well_defined (HTMLElement := nat) sample)
      as (tree & Htree & _ & Hrows).
    same_tree Htree.
    exact (proj2 (Hrows 1%nat sampleRow eq_refl)).
Defined.

Lemma row_pointer_events_witness :
  nth_error (rows_of sampleTree) 1 = Some sampleRow /\
  fire Click sampleRow = [setSelectedElement 2%nat] /\
  fire MouseEnter sampleRow = [setHighlightElement (Some 2%nat)] /\
  fire MouseLeave sampleRow = [setHighlightElement None] /\
  fire MouseMove sampleRow = [].
Proof.
  split; [reflexivity|].
  destruct (row_pointer_events (HTMLElement := nat) sample)
    as (tree & Htree & Hrows).
  same_tree Htree.
  destruct (Hrows 1%nat sampleRow eq_refl)
    as (item & Hitem & Hclick & Henter & Hleave & Hother).
  injection Hitem as <-.
  split; [exact Hclick|].
  split; [exact Henter|].
  split; [exact Hleave|].
  apply Hother; discriminate.
Defined.

(** The session on the sample data dispatches the three handled events of
    the first row, in order. *)
Example session_trace :
  snd (run logReducer logSelect (sample, []) session) =
    [setHighlightElement (Some 1%nat); setSelectedElement 1%nat;
     setHighlightElement None].
Proof. reflexivity. Qed.

(** The width expression at N = 0, which no row ever carries. *)
Example label_width_of_empty_list :
  labelWidth (@nil (CountedElement nat)) = JS.NegInfinity.
Proof. reflexivity. Qed.

Example label_width_of_ten_rows :
  labelWidth (repeat bare 10) = JS.Int 30.
Proof. reflexivity. Qed.

Example buy_now_row :
  rowContent (HTMLElement := nat) (actionStep buyNow) = JS.Ok (Str "Buy now").
Proof. reflexivity. Qed.

Example bare_row :
  rowContent (HTMLElement := nat) (actionStep bare) =
    JS.Ok (El "em" [] [Str "Element"]).
Proof. reflexivity. Qed.

(** * Further properties *)

(** ** Decimal digits and the printed number *)

Lemma digits_unique (n d : Z) :
  10 ^ (d - 1) <= n < 10 ^ d -> 1 <= d -> JS.digits n = d.
Proof.
  intros [Hlo Hhi] Hd.
  assert (Hn : 1 <= n).
  { pose proof (Z.pow_pos_nonneg 10 (d - 1) ltac:(lia) ltac:(lia)). lia. }
  destruct (digits_spec n Hn) as (Hd' & Hlo' & Hhi').
  destruct (Z.lt_trichotomy (JS.digits n) d) as [Hlt | [Heq | Hgt]].
  - pose proof (Z.pow_le_mono_r 10 (JS.digits n) (d - 1) ltac:(lia) ltac:(lia)).
    lia.
  - exact Heq.
  - pose proof (Z.pow_le_mono_r 10 d (JS.digits n - 1) ltac:(lia) ltac:(lia)).
    lia.
Qed.

Lemma digits_mono (n m : Z) :
  1 <= n -> n <= m -> JS.digits n <= JS.digits m.
Proof.
  intros Hn Hnm.
  destruct (digits_spec n Hn) as (Hdn & Hlon & Hhin).
  destruct (digits_spec m ltac:(lia)) as (Hdm & Hlom & Hhim).
  destruct (Z.le_gt_cases (JS.digits n) (JS.digits m)) as [Hle | Hgt];
    [exact Hle|].
  pose proof (Z.pow_le_mono_r 10 (JS.digits m) (JS.digits n - 1)
                ltac:(lia) ltac:(lia)).
  lia.
Qed.

Lemma length_append (s t : string) :
  String.length (s ++ t) = (String.length s + String.length t)%nat.
Proof.
  induction s as [|c s IH]; cbn; [reflexivity | rewrite IH; reflexivity].
Qed.

Lemma length_string_of_uint (d : Decimal.uint) :
  String.length (NilEmpty.string_of_uint d) = Decimal.nb_digits d.
Proof.
  induction d; cbn; congruence.
Qed.

Lemma usize_nb_digits (d : Decimal.uint) :
  DecimalPos.Unsigned.usize d = N.of_nat (Decimal.nb_digits d).
Proof.
  induction d; cbn [DecimalPos.Unsigned.usize Decimal.nb_digits];
    rewrite ?IHd, ?Nat2N.inj_succ; reflexivity.
Qed.

Lemma of_lu_bound (d : Decimal.uint) :
  (DecimalPos.Unsigned.of_lu d < 10 ^ DecimalPos.Unsigned.usize d)%N.
Proof.
  induction d; cbn [DecimalPos.Unsigned.of_lu DecimalPos.Unsigned.usize];
    rewrite ?N.pow_succ_r'; lia.
Qed.

(** The decimal numeral of a positive number has no leading zero. *)
Lemma to_uint_leading (p : positive) :
  exists l acc,
    (1 <= acc <= 9)%positive /\
    N.pos p = N.pos (Pos.of_uint_acc l acc) /\
    Decimal.nb_digits (Pos.to_uint p) = S (Decimal.nb_digits l).
Proof.
  pose proof (DecimalPos.Unsigned.of_to p) as Hof.
  pose proof (DecimalPos.Unsigned.to_of (Pos.to_uint p)) as Hnorm.
  rewrite Hof in Hnorm. cbn [N.to_uint] in Hnorm.
  pose proof (DecimalPos.Unsigned.to_uint_nonnil p) as Hnil.
  pose proof (DecimalPos.Unsigned.to_uint_nonzero p) as Hzero.
  destruct (Pos.to_uint p) as [|l|l|l|l|l|l|l|l|l|l] eqn:Hd;
    [contradiction | | | | | | | | | | ];
    cbn [Pos.of_uint] in Hof.
  2-10: (eexists l, _; split; [|split; [symmetry; exact Hof | reflexivity]]; lia).
  exfalso.
  rewrite DecimalFacts.unorm_D0 in Hnorm.
  pose proof (DecimalFacts.nb_digits_unorm l) as Hlen.
  destruct l as [|l|l|l|l|l|l|l|l|l|l]; [apply Hzero; reflexivity | ..];
    (rewrite <- Hnorm in Hlen; cbn [Decimal.nb_digits] in Hlen;
     specialize (Hlen ltac:(discriminate)); lia).
Qed.

(** The number of characters [String(n)] prints for a positive integer is
    its number of decimal digits. *)
Lemma toString_length (n : Z) :
  1 <= n -> Z.of_nat (String.length (JS.toString (JS.Int n))) = JS.digits n.
Proof.
  intros Hn. destruct n as [|p|p]; try lia.
  cbn [JS.toString Z.to_int NilEmpty.string_of_int].
  rewrite length_string_of_uint.
  destruct (to_uint_leading p) as (l & acc & Hacc & Hval & Hlen).
  rewrite Hlen. symmetry. apply digits_unique; [|lia].
  rewrite DecimalPos.Unsigned.of_uint_acc_rev, usize_nb_digits in Hval.
  pose proof (of_lu_bound (Decimal.rev l)) as Hlt.
  rewrite usize_nb_digits, DecimalFacts.nb_digits_rev in Hlt.
  replace (Z.of_nat (S (Decimal.nb_digits l)) - 1)
    with (Z.of_nat (Decimal.nb_digits l)) by lia.
  rewrite Nat2Z.inj_succ, Z.pow_succ_r by lia.
  assert (Hpow : Z.of_N (10 ^ N.of_nat (Decimal.nb_digits l)) =
                 10 ^ Z.of_nat (Decimal.nb_digits l)).
  { rewrite N2Z.inj_pow, nat_N_Z. reflexivity. }
  assert (HZ : Z.pos p =
               Z.of_N (DecimalPos.Unsigned.of_lu (Decimal.rev l)) +
               Z.pos acc * 10 ^ Z.of_nat (Decimal.nb_digits l)).
  { rewrite <- Hpow. change (Z.pos acc) with (Z.of_N (N.pos acc)).
    rewrite <- N2Z.inj_mul, <- N2Z.inj_add, <- Hval. reflexivity. }
  apply N2Z.inj_lt in Hlt. rewrite Hpow in Hlt.
  pose proof (N2Z.is_nonneg (DecimalPos.Unsigned.of_lu (Decimal.rev l))).
  pose proof (Z.pow_pos_nonneg 10 (Z.of_nat (Decimal.nb_digits l))
                ltac:(lia) ltac:(lia)).
  nia.
Qed.

Section Further.

Context {HTMLElement : Type}.

Implicit Types (v : values HTMLElement) (item : CountedElement HTMLElement).
Implicit Types (tree row : node HTMLElement) (a : option ActionStepType).
Implicit Types (ces : list (CountedElement HTMLElement)).

(** ** The width of the rank column *)

Lemma labelWidth_nonempty ces :
  ces <> [] ->
  labelWidth ces =
    JS.Int (JS.digits (Z.of_nat (List.length ces)) * 12 + 6).
Proof.
  destruct ces as [|item ces]; [contradiction | reflexivity].
Qed.

(** X4. The width goes by the number of decimal digits of the list length:
    a list of between [10^(d-1)] and [10^d - 1] elements gets [12 * d + 6]
    pixels, that is 18 up to 9 elements, 30 up to 99, 42 up to 999. *)
Theorem label_width_by_decade ces (d : Z) :
  1 <= d ->
  10 ^ (d - 1) <= Z.of_nat (List.length ces) < 10 ^ d ->
  labelWidth ces = JS.Int (12 * d + 6).
Proof.
  intros Hd Hrange.
  assert (Hne : ces <> []).
  { intros ->. cbn in Hrange.
    pose proof (Z.pow_pos_nonneg 10 (d - 1) ltac:(lia) ltac:(lia)). lia. }
  rewrite (labelWidth_nonempty ces Hne), (digits_unique _ d Hrange Hd).
  f_equal. lia.
Qed.

(** X5. The rank column never narrows as the list grows. *)
Theorem label_width_monotone ces ces' :
  ces <> [] ->
  (List.length ces <= List.length ces')%nat ->
  exists w w',
    labelWidth ces = JS.Int w /\ labelWidth ces' = JS.Int w' /\ w <= w'.
Proof.
  intros Hne Hlen.
  assert (Hne' : ces' <> []).
  { intros ->. destruct ces; [contradiction | cbn in Hlen; lia]. }
  assert (Hpos : (1 <= List.length ces)%nat).
  { destruct ces; [contradiction | cbn; lia]. }
  do 2 eexists.
  split; [apply labelWidth_nonempty; exact Hne|].
  split; [apply labelWidth_nonempty; exact Hne'|].
  pose proof (digits_mono (Z.of_nat (List.length ces))
                (Z.of_nat (List.length ces')) ltac:(lia) ltac:(lia)).
  lia.
Qed.

(** ** What a row displays *)

Lemma rowContent_shown a (content : node HTMLElement) :
  rowContent a = JS.Ok content -> textContent content <> EmptyString.
Proof.
  destruct a as [[[[|c s]|] [[|c' t]|]]|]; cbn; intros H;
    injection H as <-; cbn; discriminate.
Qed.

Lemma label_text row (k : Z) :
  children_of (label_of row) = [Num (JS.Int k); Str "."] ->
  textContent (label_of row) = JS.toString (JS.Int k) ++ ".".
Proof.
  destruct (label_of row) as [| | |cs|tag props cs]; cbn [children_of];
    intros Hlabel; try discriminate; subst cs; reflexivity.
Qed.

(** X3. No row is blank: the content of every rendered row displays at
    least one character (the text, the bracketed tag name, or
    "Element"). *)
Theorem row_content_never_blank v :
  exists tree,
    HeatmapStats v = JS.Ok tree /\
    forall k row,
      nth_error (rows_of tree) k = Some row ->
      textContent (content_of row) <> EmptyString.
Proof.
  destruct (HeatmapStats_rows v) as (tree & Htree & Hrows).
  exists tree. split; [exact Htree|].
  intros k row Hrow.
  destruct (Hrows _ _ Hrow) as (_ & _ & item & Hitem & Hrender).
  destruct (renderItem_ok (countedElements v) item k)
    as (row' & content & Hrender' & Hcontent & Hof & _).
  assert (row' = row) as -> by congruence.
  rewrite Hof. exact (rowContent_shown _ _ Hcontent).
Qed.

(** X1. Every rendered row ends with a [<div>] holding the click count of
    the element at its position, followed by " clicks". *)
Theorem row_shows_click_count v :
  exists tree,
    HeatmapStats v = JS.Ok tree /\
    forall k row,
      nth_error (rows_of tree) k = Some row ->
      exists item,
        nth_error (countedElements v) k = Some item /\
        children_of row =
          [nth_child 0 row;
           El "div" [] [Num (JS.Int (count item)); Str " clicks"]] /\
        textContent (nth_child 1 row) =
          JS.toString (JS.Int (count item)) ++ " clicks".
Proof.
  destruct (HeatmapStats_rows v) as (tree & Htree & Hrows).
  exists tree. split; [exact Htree|].
  intros k row Hrow.
  destruct (Hrows _ _ Hrow) as (_ & _ & item & Hitem & Hrender).
  exists item. split; [exact Hitem|].
  destruct item as [e c a]. unfold renderItem in Hrender.
  destruct (rowContent_ok (HTMLElement := HTMLElement) a)
    as [content Hcontent].
  rewrite Hcontent in Hrender. cbn [JS.bind] in Hrender.
  injection Hrender as <-. split; reflexivity.
Qed.

(** X2. The number of elements announced in the summary line is the
    number of rows in the list below it. *)
Theorem summary_counts_the_rows v :
  heatmapEnabled v = true ->
  heatmapLoading v = false ->
  exists tree line,
    HeatmapStats v = JS.Ok tree /\
    nth_error (panel_of tree) 1 = Some line /\
    nth_error (children_of line) 1 =
      Some (Num (JS.Int (Z.of_nat (List.length (rows_of tree))))).
Proof.
  intros Hen Hld.
  destruct (HeatmapStats_visible v Hen Hld) as (rows & Htree & Hlen & _).
  do 2 eexists. split; [exact Htree|].
  split; [reflexivity|].
  cbn. rewrite Hlen. reflexivity.
Qed.

(** X6. The rank column fits every rank it shows, at 12 pixels a digit: the
    label of the row at position [k] displays the digits of [k + 1] and a
    full stop, and the width of the column is at least 12 pixels for each
    of those digits plus 6. *)
Theorem rank_label_fits v :
  exists tree,
    HeatmapStats v = JS.Ok tree /\
    forall k row,
      nth_error (rows_of tree) k = Some row ->
      exists w,
        width_of row = Some (JS.Int w) /\
        Z.of_nat (String.length (textContent (label_of row))) =
          JS.digits (Z.of_nat k + 1) + 1 /\
        12 * (Z.of_nat (String.length (textContent (label_of row))) - 1) + 6
          <= w.
Proof.
  destruct (HeatmapStats_rows v) as (tree & Htree & Hrows).
  exists tree. split; [exact Htree|].
  intros k row Hrow.
  destruct (Hrows _ _ Hrow) as (_ & _ & item & Hitem & Hrender).
  destruct (renderItem_ok (countedElements v) item k)
    as (row' & content & Hrender' & _ & _ & Hwidth & Hlabel & _).
  assert (row' = row) as -> by congruence.
  assert (Hk : (k < List.length (countedElements v))%nat).
  { apply nth_error_Some. congruence. }
  assert (Hne : countedElements v <> []).
  { intros Hnil. rewrite Hnil in Hk. cbn in Hk. lia. }
  rewrite (labelWidth_nonempty _ Hne) in Hwidth.
  eexists. split; [exact Hwidth|].
  rewrite (label_text _ _ Hlabel), length_append, Nat2Z.inj_add.
  rewrite toString_length by lia. cbn [String.length].
  split; [lia|].
  pose proof (digits_mono (Z.of_nat k + 1)
                (Z.of_nat (List.length (countedElements v)))
                ltac:(lia) ltac:(lia)).
  lia.
Qed.

(** ** Growing the list *)

Lemma renderItem_width_only ces ces' item (index : nat) :
  labelWidth ces = labelWidth ces' ->
  renderItem ces item index = renderItem ces' item index.
Proof.
  intros Hwidth. destruct item as [e c a].
  unfold renderItem. rewrite Hwidth. reflexivity.
Qed.

(** X7. Appending elements to the list leaves the rows already shown as
    they are, as long as the length keeps its number of decimal digits. *)
Theorem rows_kept_when_list_grows v v' (more : list (CountedElement HTMLElement)) :
  heatmapEnabled v' = true ->
  heatmapLoading v' = false ->
  countedElements v' = (countedElements v ++ more)%list ->
  JS.digits (Z.of_nat (List.length (countedElements v'))) =
    JS.digits (Z.of_nat (List.length (countedElements v))) ->
  exists tree tree',
    HeatmapStats v = JS.Ok tree /\
    HeatmapStats v' = JS.Ok tree' /\
    forall k row,
      nth_error (rows_of tree) k = Some row ->
      nth_error (rows_of tree') k = Some row.
Proof.
  intros Hen Hld Happ Hdigits.
  destruct (HeatmapStats_rows v) as (tree & Htree & Hrows).
  destruct (HeatmapStats_visible v' Hen Hld) as (rows' & Htree' & _ & Hnth').
  do 2 eexists. split; [exact Htree|]. split; [exact Htree'|].
  cbn. intros k row Hrow.
  destruct (Hrows _ _ Hrow) as (_ & _ & item & Hitem & Hrender).
  assert (Hk : (k < List.length (countedElements v))%nat).
  { apply nth_error_Some. congruence. }
  assert (Hitem' : nth_error (countedElements v') k = Some item).
  { rewrite Happ, nth_error_app1 by exact Hk. exact Hitem. }
  destruct (Hnth' _ _ Hitem') as (row' & Hrow' & Hrender').
  rewrite Hrow'. f_equal.
  assert (Hne : countedElements v <> []).
  { intros Hnil. rewrite Hnil in Hk. cbn in Hk. lia. }
  assert (Hne' : countedElements v' <> []).
  { rewrite Happ. intros Hnil. apply app_eq_nil in Hnil as [Hnil _].
    contradiction. }
  rewrite (renderItem_width_only (countedElements v') (countedElements v))
    in Hrender'.
  - congruence.
  - rewrite !labelWidth_nonempty by assumption. rewrite Hdigits. reflexivity.
Qed.

End Further.

(** ** What pointer events dispatch *)

Section Sessions.

Context {HTMLElement : Type}.

Variable store : Type.
Variable reducer : store -> action HTMLElement -> store.
Variable select : store -> values HTMLElement.

Lemma deliver_dispatches (st : store) (k : nat) (ev : event) :
  snd (deliver reducer select st k ev) =
    if heatmapEnabled (select st) && negb (heatmapLoading (select st)) then
      match nth_error (countedElements (select st)) k with
      | Some item =>
          match ev with
          | Click => [setSelectedElement (element item)]
          | MouseEnter => [setHighlightElement (Some (element item))]
          | MouseLeave => [setHighlightElement None]
          | _ => []
          end
      | None => []
      end
    else [].
Proof.
  unfold deliver.
  destruct (heatmapEnabled (select st) && negb (heatmapLoading (select st)))
    eqn:Hvis.
  - apply andb_true_iff in Hvis as [Hen Hld]. apply negb_true_iff in Hld.
    destruct (HeatmapStats_visible (select st) Hen Hld)
      as (rows & Htree & Hlen & Hnth).
    rewrite Htree.
    change (rows_of (El "div" [] _)) with rows.
    destruct (nth_error (countedElements (select st)) k) as [item|] eqn:Hitem.
    + destruct (Hnth _ _ Hitem) as (row & Hrow & Hrender).
      rewrite Hrow. cbn [snd].
      destruct (renderItem_ok (countedElements (select st)) item k)
        as (row' & content & Hrender' & _ & _ & _ & _ & _
            & Hclick & Henter & Hleave & Hother).
      assert (row' = row) as -> by congruence.
      destruct ev; try (apply Hother; discriminate); assumption.
    + apply nth_error_None in Hitem. rewrite <- Hlen in Hitem.
      apply nth_error_None in Hitem. rewrite Hitem. reflexivity.
  - rewrite (HeatmapStats_hidden _ Hvis).
    change (rows_of (El "div" [] [Null])) with (@nil (node HTMLElement)).
    destruct k; reflexivity.
Qed.

(** X8. A pointer event on the [k]-th row dispatches according to the
    values alone: nothing while the panel is hidden or when there is no
    [k]-th element; otherwise select of that element on click, highlight
    of it on mouse-enter, highlight of [null] on mouse-leave, and nothing
    on any other event. *)
Theorem dispatch_by_values (st : store) (k : nat) (ev : event) :
  snd (deliver reducer select st k ev) =
    if heatmapEnabled (select st) && negb (heatmapLoading (select st)) then
      match nth_error (countedElements (select st)) k with
      | Some item =>
          match ev with
          | Click => [setSelectedElement (element item)]
          | MouseEnter => [setHighlightElement (Some (element item))]
          | MouseLeave => [setHighlightElement None]
          | _ => []
          end
      | None => []
      end
    else [].
Proof.
  exact (deliver_dispatches st k ev).
Qed.

Lemma deliver_at_most_one (st : store) (k : nat) (ev : event) :
  (List.length (snd (deliver reducer select st k ev)) <= 1)%nat.
Proof.
  rewrite deliver_dispatches.
  destruct (heatmapEnabled (select st) && negb (heatmapLoading (select st)));
    [|cbn; lia].
  destruct (nth_error (countedElements (select st)) k); [|cbn; lia].
  destruct ev; cbn; lia.
Qed.

(** X9. No pointer event dispatches more than one action: a session of [n]
    events dispatches at most [n] actions. *)
Theorem at_most_one_dispatch_per_event (st : store) (evs : list (nat * event)) :
  (List.length (snd (run reducer select st evs)) <= List.length evs)%nat.
Proof.
  revert st. induction evs as [|[k ev] evs IH]; intros st.
  - cbn. lia.
  - rewrite run_cons. cbn [snd List.length]. rewrite length_app.
    pose proof (deliver_at_most_one st k ev).
    specialize (IH (fst (deliver reducer select st k ev))).
    lia.
Qed.

(** X10. While the panel is hidden, or while there are no counted
    elements, no sequence of pointer events dispatches anything, and the
    store stays as it is. *)
Theorem nothing_to_dispatch (st : store) (evs : list (nat * event)) :
  heatmapEnabled (select st) && negb (heatmapLoading (select st)) = false \/
  countedElements (select st) = [] ->
  run reducer select st evs = (st, []).
Proof.
  intros Hnone.
  assert (Hstep : forall k ev, deliver reducer select st k ev = (st, [])).
  { intros k ev.
    pose proof (deliver_store store reducer select st k ev) as Hst.
    pose proof (deliver_dispatches st k ev) as Hacts.
    assert (Hnil : snd (deliver reducer select st k ev) = []).
    { rewrite Hacts. destruct Hnone as [-> | ->]; [reflexivity|].
      destruct (_ && _); [|reflexivity]. destruct k; reflexivity. }
    rewrite Hnil in Hst. cbn in Hst.
    destruct (deliver reducer select st k ev) as [st1 acts].
    cbn in Hst, Hnil. congruence. }
  induction evs as [|[k ev] evs IH].
  - reflexivity.
  - rewrite run_cons, Hstep. cbn [fst snd]. rewrite IH. reflexivity.
Qed.

(** X11. Hovering over a row and leaving it again dispatches the highlight
    of the row's element and then the highlight of [null], provided the
    reducer leaves the heatmap values alone in between. *)
Theorem hover_then_leave (st : store) (k : nat) (item : CountedElement HTMLElement) :
  heatmapEnabled (select st) = true ->
  heatmapLoading (select st) = false ->
  nth_error (countedElements (select st)) k = Some item ->
  (forall s act, select (reducer s act) = select s) ->
  snd (run reducer select st [(k, MouseEnter); (k, MouseLeave)]) =
    [setHighlightElement (Some (element item)); setHighlightElement None].
Proof.
  intros Hen Hld Hitem Hkeep.
  rewrite !run_cons. cbn [run fst snd]. rewrite List.app_nil_r.
  assert (Hsel : select (fst (deliver reducer select st k MouseEnter)) =
                 select st).
  { rewrite deliver_store. apply fold_left_select. exact Hkeep. }
  rewrite !deliver_dispatches, Hsel, Hen, Hld, Hitem. reflexivity.
Qed.

End Sessions.

(** * The further properties on the sample data *)

Lemma label_width_by_decade_witness :
  labelWidth (countedElements sample) = JS.Int 18.
Proof.
  apply (label_width_by_decade (countedElements sample) 1); cbn; lia.
Defined.

Lemma label_width_monotone_witness :
  exists w w',
    labelWidth (countedElements sample) = JS.Int w /\
    labelWidth (countedElements sampleGrown) = JS.Int w' /\
    w <= w'.
Proof.
  apply (label_width_monotone (countedElements sample)
           (countedElements sampleGrown)).
  - discriminate.
  - cbn. lia.
Defined.

Lemma row_content_never_blank_witness :
  nth_error (rows_of sampleTree) 1 = Some sampleRow /\
  textContent (content_of sampleRow) <> EmptyString.
Proof.
  split; [reflexivity|].
  destruct (row_content_never_blank (HTMLElement := nat) sample)
    as (tree & Htree & Hrows).
  same_tree Htree.
  exact (Hrows 1%nat sampleRow eq_refl).
Defined.

Lemma row_shows_click_count_witness :
  nth_error (rows_of sampleTree) 1 = Some sampleRow /\
  textContent (nth_child 1 sampleRow) = "3 clicks".
Proof.
  split; [reflexivity|].
  destruct (row_shows_click_count (HTMLElement := nat) sample)
    as (tree & Htree & Hrows).
  same_tree Htree.
  destruct (Hrows 1%nat sampleRow eq_refl) as (item & Hitem & _ & Htext).
  injection Hitem as <-.
  exact Htext.
Defined.

Lemma summary_counts_the_rows_witness :
  exists line,
    nth_error (panel_of sampleTree) 1 = Some line /\
    nth_error (children_of line) 1 = Some (Num (JS.Int 3)).
Proof.
  destruct (summary_counts_the_rows (HTMLElement := nat) sample
              eq_refl eq_refl)
    as (tree & line & Htree & Hline & Hcount).
  same_tree Htree.
  exists line. split; [exact Hline | exact Hcount].
Defined.

Lemma rank_label_fits_witness :
  nth_error (rows_of sampleTree) 1 = Some sampleRow /\
  exists w,
    width_of sampleRow = Some (JS.Int w) /\
    String.length (textContent (label_of sampleRow)) = 2%nat /\
    18 <= w.
Proof.
  split; [reflexivity|].
  destruct (rank_label_fits (HTMLElement := nat) sample)
    as (tree & Htree & Hrows).
  same_tree Htree.
  destruct (Hrows 1%nat sampleRow eq_refl) as (w & Hwidth & _ & Hfits).
  exists w. split; [exact Hwidth|]. split; [reflexivity|].
  exact Hfits.
Defined.

Lemma rows_kept_when_list_grows_witness :
  exists tree',
    HeatmapStats sampleGrown = JS.Ok tree' /\
    nth_error (rows_of tree') 1 = Some sampleRow.
Proof.
  destruct (rows_kept_when_list_grows (HTMLElement := nat)
              sample sampleGrown [emptyText]
              eq_refl eq_refl eq_refl eq_refl)
    as (tree & tree' & Htree & Htree' & Hkept).
  same_tree Htree.
  exists tree'. split; [exact Htree'|].
  exact (Hkept 1%nat sampleRow eq_refl).
Defined.

Lemma nothing_to_dispatch_witness :
  run logReducer logSelect (loading, []) session = ((loading, []), []) /\
  run logReducer logSelect (nothingFound, []) session =
    ((nothingFound, []), []).
Proof.
  split.
  - apply (nothing_to_dispatch logStore logReducer logSelect (loading, [])).
    left. reflexivity.
  - apply (nothing_to_dispatch logStore logReducer logSelect
             (nothingFound, [])).
    right. reflexivity.
Defined.

Lemma hover_then_leave_witness :
  snd (run logReducer logSelect (sample, [])
         [(1%nat, MouseEnter); (1%nat, MouseLeave)]) =
    [setHighlightElement (Some 2%nat); setHighlightElement None].
Proof.
  apply (hover_then_leave logStore logReducer logSelect (sample, [])
           1%nat button).
  - reflexivity.
  - reflexivity.
  - reflexivity.
  - intros s act. reflexivity.
Defined.
